(** * qutebrowser: notifications over D-Bus

    A shallow embedding of
    [qutebrowser/browser/webengine/notification.py]
    (class [DBusNotificationManager]) and the properties of its
    presentation path.

    The Python methods are state transformers over a [World] that holds
    the objects the code mutates or talks to: the manager itself, the
    engine's notification objects, the Python-side [QImage] objects, the
    profiles with their presenter slot, and the trace of observable
    effects.  Exceptions are results, not crashes. *)

From Stdlib Require Import ZArith.
From Stdlib.Strings Require Import Byte.
From stdpp Require Import gmap strings list fin_maps pretty.

Open Scope string_scope.
Open Scope list_scope.

(** ** Values that travel over the bus *)

(** What a [QDBusArgument] holds once a value has been added to it: the
    value together with its wire type. *)
#[warnings="-register-all"]
Inductive DBusValue : Type :=
| DString (s : string)
| DInt32 (z : Z)
| DUInt32 (z : Z)
| DBool (b : bool)
| DStringList (l : list string)
| DByteArray (bs : list byte)
| DStruct (fields : list DBusValue).

(** The D-Bus type signature of a value. *)
Fixpoint signature (v : DBusValue) : string :=
  match v with
  | DString _ => "s"
  | DInt32 _ => "i"
  | DUInt32 _ => "u"
  | DBool _ => "b"
  | DStringList _ => "as"
  | DByteArray _ => "ay"
  | DStruct fields =>
      "(" +:+ fold_right (fun f acc => signature f +:+ acc) "" fields +:+ ")"
  end.

(** *** QVariant *)

Inductive QVariantType : Type := QVariant_Int | QVariant_UInt.

Record QVariant : Type := mkQVariant {
  qv_type : QVariantType;
  qv_value : Z
}.

(** [QVariant(n)] for a Python int [n]: a variant of type Int. *)
Definition QVariant_of_int (n : Z) : QVariant :=
  {| qv_type := QVariant_Int; qv_value := n |}.

(** [v.convert(t)]: the variant takes type [t]; the value is reduced to
    the range of the new type (32 bits, unsigned or two's complement). *)
Definition QVariant_convert (t : QVariantType) (v : QVariant) : QVariant :=
  {| qv_type := t;
     qv_value :=
       match t with
       | QVariant_UInt => qv_value v mod 2 ^ 32
       | QVariant_Int => (qv_value v + 2 ^ 31) mod 2 ^ 32 - 2 ^ 31
       end |}.

(** *** QDBusArgument

    A builder: values are appended to the innermost open structure;
    [qa_open] is the stack of enclosing levels. *)

Record QDBusArgument : Type := mkQDBusArgument {
  qa_items : list DBusValue;
  qa_open : list (list DBusValue)
}.

(** [QDBusArgument()] *)
Definition QDBusArgument_new : QDBusArgument :=
  {| qa_items := []; qa_open := [] |}.

Definition beginStructure (a : QDBusArgument) : QDBusArgument :=
  {| qa_items := []; qa_open := qa_items a :: qa_open a |}.

Definition endStructure (a : QDBusArgument) : QDBusArgument :=
  match qa_open a with
  | parent :: rest =>
      {| qa_items := parent ++ [DStruct (qa_items a)]; qa_open := rest |}
  | [] => a
  end.

Definition append (v : DBusValue) (a : QDBusArgument) : QDBusArgument :=
  {| qa_items := qa_items a ++ [v]; qa_open := qa_open a |}.

(** The Python objects the source hands to [QDBusArgument.add]. *)
Inductive Addable : Type :=
| AddInt (z : Z)
| AddBool (b : bool)
| AddQByteArray (bs : list byte).

(** [a.add(obj)] with the default type id [QMetaType.Int]: an exact
    Python int goes out as a 32-bit signed integer, any other object by
    the type of the QVariant it converts to. *)
Definition add (obj : Addable) (a : QDBusArgument) : QDBusArgument :=
  match obj with
  | AddInt z => append (DInt32 z) a
  | AddBool b => append (DBool b) a
  | AddQByteArray bs => append (DByteArray bs) a
  end.

(** [QDBusArgument(l, QMetaType.QStringList)] *)
Definition QDBusArgument_of_QStringList (l : list string) : QDBusArgument :=
  append (DStringList l) QDBusArgument_new.

(** Signature of what the argument holds at its current level. *)
Definition currentSignature (a : QDBusArgument) : string :=
  fold_right (fun f acc => signature f +:+ acc) "" (qa_items a).

(** *** Arguments of a method call

    The Python objects the source passes to [QDBusInterface.call]. *)
#[warnings="-register-all"]
Inductive PyArg : Type :=
| PyStr (s : string)
| PyInt (z : Z)
| PyQVariant (v : QVariant)
| PyQDBusArgument (a : QDBusArgument)
| PyDict (d : gmap string PyArg).

(** How each argument is typed on the wire: a Python int as the
    narrowest of int32 and int64 that holds it, a QVariant by its own
    type, a dict with string keys as a map to variants. *)
Definition arg_signature (x : PyArg) : string :=
  match x with
  | PyStr _ => "s"
  | PyInt z =>
      if bool_decide (- 2 ^ 31 <= z < 2 ^ 31)%Z then "i" else "x"
  | PyQVariant v =>
      match qv_type v with QVariant_Int => "i" | QVariant_UInt => "u" end
  | PyQDBusArgument a => currentSignature a
  | PyDict _ => "a{sv}"
  end.

Definition call_signature (args : list PyArg) : string :=
  fold_right (fun x acc => arg_signature x +:+ acc) "" args.

Inductive CallMode : Type := NoBlock | Block | BlockWithGui | AutoDetect.

Record MethodCall : Type := mkMethodCall {
  call_mode : CallMode;
  call_method : string;
  call_args : list PyArg
}.

(** *** Replies *)

(** The Python values [QDBusMessage.arguments()] yields for the replies
    this interface sees: integers (the assigned id), strings (the text
    of an error) and [None] (an invalid QVariant). *)
Inductive PyValue : Type :=
| VInt (z : Z)
| VStr (s : string)
| VNone.

(** [str(v)], as ["{}".format(v)] renders it. *)
Definition py_str (v : PyValue) : string :=
  match v with
  | VInt z => pretty z
  | VStr s => s
  | VNone => "None"
  end.

Inductive MessageType : Type := ReplyMessage | ErrorMessage.

Record QDBusMessage : Type := mkQDBusMessage {
  msg_type : MessageType;
  errorName : string;
  errorMessage : string;
  arguments : list PyValue
}.

(** What [QDBusAbstractInterface.call] does to the message that came
    back before it returns it: it makes sure there is at least one
    argument, appending one invalid QVariant to an empty list. *)
Definition at_least_one_argument (m : QDBusMessage) : QDBusMessage :=
  match arguments m with
  | [] => {| msg_type := msg_type m; errorName := errorName m;
             errorMessage := errorMessage m; arguments := [VNone] |}
  | _ :: _ => m
  end.

(** ** QImage

    The part of Qt's image class the encoder touches.  A null image has
    no data block. *)

Inductive Format : Type :=
| Format_Invalid | Format_Mono | Format_MonoLSB | Format_Indexed8
| Format_RGB32 | Format_ARGB32 | Format_ARGB32_Premultiplied
| Format_RGB16 | Format_ARGB8565_Premultiplied | Format_RGB666
| Format_ARGB6666_Premultiplied | Format_RGB555
| Format_ARGB8555_Premultiplied | Format_RGB888 | Format_RGB444
| Format_ARGB4444_Premultiplied | Format_RGBX8888 | Format_RGBA8888
| Format_RGBA8888_Premultiplied | Format_BGR30
| Format_A2BGR30_Premultiplied | Format_RGB30
| Format_A2RGB30_Premultiplied | Format_Alpha8 | Format_Grayscale8
| Format_RGBX64 | Format_RGBA64 | Format_RGBA64_Premultiplied
| Format_Grayscale16 | Format_BGR888.

#[global] Instance Format_eq_dec : EqDecision Format.
Proof. solve_decision. Defined.

Inductive AlphaUsage : Type := UsesAlpha | IgnoresAlpha | IndexedColors.

Definition alphaUsage (f : Format) : AlphaUsage :=
  match f with
  | Format_Mono | Format_MonoLSB | Format_Indexed8 => IndexedColors
  | Format_ARGB32 | Format_ARGB32_Premultiplied
  | Format_ARGB8565_Premultiplied | Format_ARGB6666_Premultiplied
  | Format_ARGB8555_Premultiplied | Format_ARGB4444_Premultiplied
  | Format_RGBA8888 | Format_RGBA8888_Premultiplied
  | Format_A2BGR30_Premultiplied | Format_A2RGB30_Premultiplied
  | Format_Alpha8 | Format_RGBA64 | Format_RGBA64_Premultiplied => UsesAlpha
  | _ => IgnoresAlpha
  end.

Record QImageData : Type := mkQImageData {
  d_format : Format;
  d_width : nat;
  d_height : nat;
  d_bytes_per_line : nat;
  d_has_alpha_clut : bool;
  (** the pixel memory, as seen from the pointer to its first byte *)
  d_data : nat -> byte
}.

Definition QImage : Type := option QImageData.

Definition isNull (q : QImage) : bool :=
  match q with None => true | Some _ => false end.

(** [format()] *)
Definition QImage_format (q : QImage) : Format :=
  from_option d_format Format_Invalid q.

Definition width (q : QImage) : nat := from_option d_width 0 q.
Definition height (q : QImage) : nat := from_option d_height 0 q.
Definition bytesPerLine (q : QImage) : nat := from_option d_bytes_per_line 0 q.

(** The data block of an image is [bytes_per_line * height] bytes. *)
Definition byteCount (q : QImage) : nat :=
  from_option (fun d => d_bytes_per_line d * d_height d) 0 q.

Definition hasAlphaChannel (q : QImage) : bool :=
  match q with
  | None => false
  | Some d =>
      match alphaUsage (d_format d) with
      | UsesAlpha => true
      | IndexedColors => d_has_alpha_clut d
      | IgnoresAlpha => false
      end
  end.

(** [constBits()]: a pointer, [None] for a null image. *)
Definition constBits (q : QImage) : option (nat -> byte) := d_data <$> q.

(** [ptr.asstring(size)]: the [size] bytes at the pointer. *)
Definition asstring (ptr : nat -> byte) (size : nat) : list byte :=
  ptr <$> seq 0 size.

(** ** The engine's objects *)

(** A [QWebEngineNotification].  [n_origin] is
    [origin().toDisplayString()]; [n_icon] is the image the engine
    keeps; [n_shown] records that [show()] was called. *)
Record QWebEngineNotification : Type := mkNotification {
  n_title : string;
  n_message : string;
  n_origin : string;
  n_icon : QImage;
  n_shown : bool
}.

#[global] Instance QWebEngineNotification_inhabited :
  Inhabited QWebEngineNotification :=
  populate {| n_title := ""; n_message := ""; n_origin := "";
              n_icon := None; n_shown := false |}.

(** The callables that can sit in a profile's presenter slot: the
    closure [_present_and_reset] made by [set_as_presenter_for] for a
    profile, and the bound method [self._present] that the docstring of
    [_present] warns against installing. *)
Inductive Callback : Type :=
| present_and_reset (profile : nat)
| bound_present.

#[global] Instance Callback_eq_dec : EqDecision Callback.
Proof. solve_decision. Defined.

(** A [QWebEngineProfile]: the installed presenter and the number of
    references the binding holds on it. *)
Record QWebEngineProfile : Type := mkProfile {
  presenter : option Callback;
  presenter_refs : nat
}.

#[global] Instance QWebEngineProfile_inhabited : Inhabited QWebEngineProfile :=
  populate {| presenter := None; presenter_refs := 0 |}.

(** ** The bus side *)

Record QDBusConnection : Type := mkQDBusConnection {
  isConnected : bool;
  (** whether the notification service can be bound on this bus *)
  service_reachable : bool
}.

Record QDBusInterface : Type := mkQDBusInterface {
  if_service : string;
  if_path : string;
  if_interface : string;
  if_connection : QDBusConnection;
  (** Qt's [isValid()] *)
  isValid : bool
}.

(** [QDBusInterface(service, path, interface, bus)]: the constructor
    always returns an object; whether it could be bound shows in
    [isValid] only. *)
Definition QDBusInterface_new (service path iface : string)
    (bus : QDBusConnection) : QDBusInterface :=
  {| if_service := service; if_path := path; if_interface := iface;
     if_connection := bus;
     isValid := isConnected bus && service_reachable bus |}.

(** Python's truth value of a [QDBusInterface] object: the class defines
    neither [__bool__] nor [__len__], so every instance is true. *)
Definition QDBusInterface_bool (i : QDBusInterface) : bool := true.

(** ** The manager and the world *)

Record DBusNotificationManager : Type := mkManager {
  (** notification id to notification object (by reference) *)
  active_notifications : gmap Z nat;
  interface : QDBusInterface
}.

Inductive Event : Type :=
| EvSetPresenter (profile : nat) (cb : Callback)
| EvShow (notification : nat)
| EvCall (i : QDBusInterface) (c : MethodCall)
| EvLogDebug (msg : string)
| EvStaleCallback (profile : nat).

Record World : Type := mkWorld {
  manager : DBusNotificationManager;
  notifications : gmap nat QWebEngineNotification;
  images : list QImage;
  profiles : gmap nat QWebEngineProfile;
  trace : list Event
}.

Inductive PyException : Type :=
| DBusException (msg : string)
| AttributeError (msg : string)
| IndexError (msg : string).

Inductive Res (A : Type) : Type :=
| Ok (a : A)
| Raise (e : PyException).
Arguments Ok {A} a.
Arguments Raise {A} e.

(** A method: it may change the world and then returns or raises. *)
Definition M (A : Type) : Type := World -> Res A * World.

#[global] Instance M_ret : MRet M := fun A a w => (Ok a, w).
#[global] Instance M_bind : MBind M := fun A B f m w =>
  match m w with
  | (Ok a, w') => f a w'
  | (Raise e, w') => (Raise e, w')
  end.

Definition raise {A} (e : PyException) : M A := fun w => (Raise e, w).
Definition get : M World := fun w => (Ok w, w).
Definition modify (f : World -> World) : M unit := fun w => (Ok (), f w).
Definition emit (e : Event) : M unit :=
  modify (fun w => {| manager := manager w; notifications := notifications w;
                      images := images w; profiles := profiles w;
                      trace := trace w ++ [e] |}).

Definition calls_of (t : list Event) : list MethodCall :=
  omap (fun e => match e with EvCall _ c => Some c | _ => None end) t.

Definition logs_of (t : list Event) : list string :=
  omap (fun e => match e with EvLogDebug msg => Some msg | _ => None end) t.

(** ** The methods of [DBusNotificationManager] *)

Section Manager.

(** Qt's pixel conversion of a data block to a target format (the
    work behind [QImage.convertTo] once it has decided to convert). *)
Variable qt_convert : Format -> QImageData -> QImageData.

(** The other end of the bus: the message that comes back for a call
    (as it arrives, or as the bus layer makes it up for a failure),
    given how many calls were made before it. *)
Variable daemon : nat -> MethodCall -> QDBusMessage.

(** [QImage.convertTo(format)], on an image value: nothing for a null
    image, an invalid target or an image already in that format. *)
Definition convertTo (f : Format) (q : QImage) : QImage :=
  match q with
  | None => None
  | Some d =>
      if bool_decide (f = Format_Invalid \/ d_format d = f) then Some d
      else Some (qt_convert f d)
  end.

(** *** Operations on the objects of the world *)

(** [qimage.convertTo(format)]: the object behind the reference is
    converted where it lies. *)
Definition QImage_convertTo (qimage : nat) (f : Format) : M unit :=
  modify (fun w =>
    {| manager := manager w; notifications := notifications w;
       images := <[qimage := convertTo f (images w !!! qimage)]> (images w);
       profiles := profiles w; trace := trace w |}).

Definition read_image (qimage : nat) : M QImage :=
  w ← get; mret (images w !!! qimage).

Definition read_notification (qt_notification : nat)
    : M QWebEngineNotification :=
  w ← get; mret (notifications w !!! qt_notification).

(** [qt_notification.show()] *)
Definition show (qt_notification : nat) : M unit :=
  modify (fun w =>
    let n := notifications w !!! qt_notification in
    {| manager := manager w;
       notifications :=
         <[qt_notification :=
             {| n_title := n_title n; n_message := n_message n;
                n_origin := n_origin n; n_icon := n_icon n;
                n_shown := true |}]> (notifications w);
       images := images w; profiles := profiles w;
       trace := trace w ++ [EvShow qt_notification] |}).

(** [qt_notification.icon()]: Qt declares the accessor as
    [QImage icon() const]; each call returns the image by value, so
    Python receives a new [QImage] object holding a copy. *)
Definition icon (qt_notification : nat) : M nat :=
  fun w =>
    (Ok (length (images w)),
     {| manager := manager w; notifications := notifications w;
        images := images w ++ [n_icon (notifications w !!! qt_notification)];
        profiles := profiles w; trace := trace w |}).

(** [self.interface.call(mode, method, *args)]: blocks until the
    message for this call is there, and returns it with at least one
    argument. *)
Definition interface_call (mode : CallMode) (method : string)
    (args : list PyArg) : M QDBusMessage :=
  fun w =>
    let c := {| call_mode := mode; call_method := method;
                call_args := args |} in
    (Ok (at_least_one_argument (daemon (length (calls_of (trace w))) c)),
     {| manager := manager w; notifications := notifications w;
        images := images w; profiles := profiles w;
        trace := trace w ++ [EvCall (interface (manager w)) c] |}).

(** [log.sessions.debug(msg)] *)
Definition log_debug (msg : string) : M unit := emit (EvLogDebug msg).

(** [profile.setNotificationPresenter(cb)]: the slot takes [cb]; the
    binding takes one more reference on a callable it already
    holds. *)
Definition install (cb : Callback) (p : QWebEngineProfile)
    : QWebEngineProfile :=
  {| presenter := Some cb;
     presenter_refs :=
       if bool_decide (presenter p = Some cb) then S (presenter_refs p)
       else 1 |}.

Definition setNotificationPresenter (profile : nat) (cb : Callback)
    : M unit :=
  modify (fun w =>
    {| manager := manager w; notifications := notifications w;
       images := images w;
       profiles := <[profile := install cb (profiles w !!! profile)]>
                     (profiles w);
       trace := trace w ++ [EvSetPresenter profile cb] |}).

(** *** [__init__] *)

Definition __init__ (sessionBus : QDBusConnection)
    : Res DBusNotificationManager :=
  let active_notifications := ∅ in
  let bus := sessionBus in
  if negb (isConnected bus) then
    Raise (DBusException "Failed to connect to DBus session bus")
  else
    let interface :=
      QDBusInterface_new "org.freedesktop.Notifications"
                         "/org/freedesktop/Notifications"
                         "org.freedesktop.Notifications" bus in
    if negb (QDBusInterface_bool interface) then
      Raise (DBusException "Could not construct a DBus interface")
    else
      Ok {| active_notifications := active_notifications;
            interface := interface |}.

(** *** [_convert_image] *)

Definition _convert_image (qimage : nat) : M QDBusArgument :=
  QImage_convertTo qimage Format_RGBA8888;;
  q ← read_image qimage;
  let image_data := QDBusArgument_new in
  let image_data := beginStructure image_data in
  let image_data := add (AddInt (Z.of_nat (width q))) image_data in
  let image_data := add (AddInt (Z.of_nat (height q))) image_data in
  let image_data := add (AddInt (Z.of_nat (bytesPerLine q))) image_data in
  let image_data := add (AddBool (hasAlphaChannel q)) image_data in
  let image_data := add (AddInt 8) image_data in
  let image_data := add (AddInt 4) image_data in
  match constBits q with
  | None =>
      raise (AttributeError "'NoneType' object has no attribute 'asstring'")
  | Some ptr =>
      let bits := asstring ptr (byteCount q) in
      let image_data := add (AddQByteArray bits) image_data in
      let image_data := endStructure image_data in
      mret image_data
  end.

(** *** [_present] *)

Definition _present (qt_notification : nat) : M unit :=
  let notification_id := QVariant_of_int 0 in
  let notification_id := QVariant_convert QVariant_UInt notification_id in
  let actions_list := QDBusArgument_of_QStringList [] in
  show qt_notification;;
  n ← read_notification qt_notification;
  let hints : gmap string PyArg :=
    {[ "x-qutebrowser-origin" := PyStr (n_origin n) ]} in
  tested ← icon qt_notification;
  i ← read_image tested;
  hints ← (if negb (isNull i) then
             passed ← icon qt_notification;
             image_data ← _convert_image passed;
             mret (<["image-data" := PyQDBusArgument image_data]> hints)
           else mret hints);
  n ← read_notification qt_notification;
  reply ← interface_call BlockWithGui "Notify"
            [ PyStr "qutebrowser";
              PyQVariant notification_id;
              PyStr "qutebrowser";
              PyStr (n_title n);
              PyStr (n_message n);
              PyQDBusArgument actions_list;
              PyDict hints;
              PyInt (-1) ];
  if negb (Nat.eqb (length (arguments reply)) 1) then
    raise (DBusException
             ("Got an unexpected number of reply arguments "
                +:+ pretty (length (arguments reply))))
  else
    match arguments reply with
    | notification_id :: _ =>
        log_debug ("Sent out notification " +:+ py_str notification_id)
    | [] => raise (IndexError "list index out of range")
    end.

(** *** [set_as_presenter_for] *)

(** The closure [_present_and_reset] of [set_as_presenter_for profile]. *)
Definition _present_and_reset (profile : nat) (qt_notification : nat)
    : M unit :=
  setNotificationPresenter profile (present_and_reset profile);;
  _present qt_notification.

Definition set_as_presenter_for (profile : nat) : M unit :=
  setNotificationPresenter profile (present_and_reset profile).

(** *** The engine's side of the presenter slot *)

Definition call_presenter (cb : Callback) (qt_notification : nat)
    : M unit :=
  match cb with
  | present_and_reset profile => _present_and_reset profile qt_notification
  | bound_present => _present qt_notification
  end.

(** What the source's comment reports of PyQtWebEngine: the binding
    drops one reference on the callback after it has called it.  The
    slot goes on naming the callable; with no reference left the
    callable is collected and the slot is stale. *)
Definition unref (p : QWebEngineProfile) : QWebEngineProfile :=
  {| presenter := presenter p; presenter_refs := pred (presenter_refs p) |}.

(** The engine wants a notification of [profile] displayed.  The result
    is [Some] when the callback in the slot ran, with what it returned
    or raised.  It is [None] when no presenter is installed, and when
    the slot is stale: the binding then calls into a callable that is
    gone ("random methods start getting called with the notification as
    self, or segfaults happen"), which the trace records as
    [EvStaleCallback] and which is followed no further. *)
Definition notify (profile : nat) (qt_notification : nat) (w : World)
    : option (Res unit) * World :=
  match presenter (profiles w !!! profile) with
  | None => (None, w)
  | Some cb =>
      if Nat.eqb (presenter_refs (profiles w !!! profile)) 0 then
        (None,
         {| manager := manager w; notifications := notifications w;
            images := images w; profiles := profiles w;
            trace := trace w ++ [EvStaleCallback profile] |})
      else
        let '(r, w') := call_presenter cb qt_notification w in
        (Some r,
         {| manager := manager w'; notifications := notifications w';
            images := images w';
            profiles := <[profile := unref (profiles w' !!! profile)]>
                          (profiles w');
            trace := trace w' |})
  end.

(** A run of the engine: notifications of [profile] arriving in turn;
    the outcomes are collected, the world is threaded through. *)
Fixpoint notify_all (profile : nat) (qs : list nat) (w : World)
    : list (option (Res unit)) * World :=
  match qs with
  | [] => ([], w)
  | q :: qs' =>
      let '(r, w') := notify profile q w in
      let '(rs, w'') := notify_all profile qs' w' in
      (r :: rs, w'')
  end.

End Manager.


(** ** Vocabulary of the statements *)

(** A notification once [show()] has been called on it. *)
Definition mark_shown (n : QWebEngineNotification) : QWebEngineNotification :=
  {| n_title := n_title n; n_message := n_message n; n_origin := n_origin n;
     n_icon := n_icon n; n_shown := true |}.

(** The argument [_convert_image] hands back for a data block that is
    already converted. *)
Definition image_struct (d : QImageData) : QDBusArgument :=
  {| qa_items :=
       [DStruct [DInt32 (Z.of_nat (d_width d));
                 DInt32 (Z.of_nat (d_height d));
                 DInt32 (Z.of_nat (d_bytes_per_line d));
                 DBool (hasAlphaChannel (Some d));
                 DInt32 8;
                 DInt32 4;
                 DByteArray (asstring (d_data d)
                                      (d_bytes_per_line d * d_height d))]];
     qa_open := [] |}.

Definition hints_for (converted : QImage) (origin : string)
    : gmap string PyArg :=
  match converted with
  | None => {[ "x-qutebrowser-origin" := PyStr origin ]}
  | Some d =>
      <["image-data" := PyQDBusArgument (image_struct d)]>
        {[ "x-qutebrowser-origin" := PyStr origin ]}
  end.

Definition notify_call (title message : string) (hints : gmap string PyArg)
    : MethodCall :=
  {| call_mode := BlockWithGui;
     call_method := "Notify";
     call_args :=
       [ PyStr "qutebrowser";
         PyQVariant {| qv_type := QVariant_UInt; qv_value := 0 |};
         PyStr "qutebrowser";
         PyStr title;
         PyStr message;
         PyQDBusArgument {| qa_items := [DStringList []]; qa_open := [] |};
         PyDict hints;
         PyInt (-1) ] |}.

(** The [QImage] objects one [_present] creates: the copy it tests and,
    for a non-null icon, the copy it converts. *)
Definition temporaries (icon converted : QImage) : list QImage :=
  match icon with
  | None => [icon]
  | Some _ => [icon; converted]
  end.

(** How [_present] ends once [interface.call] has returned [reply]: the
    result, and what it logs. *)
Definition conclude (reply : QDBusMessage) : Res unit * list Event :=
  match arguments reply with
  | [v] => (Ok (), [EvLogDebug ("Sent out notification " +:+ py_str v)])
  | l => (Raise (DBusException
                   ("Got an unexpected number of reply arguments "
                      +:+ pretty (length l))), [])
  end.

(** A daemon that answers whatever it is asked with [reply]. *)
Definition answering (reply : QDBusMessage) : nat -> MethodCall -> QDBusMessage :=
  fun _ _ => reply.

(** The entry points of the manager, as the engine and the embedder can
    use them on a world. *)
Inductive Op : Type :=
| OpPresent (qt_notification : nat)
| OpSetAsPresenterFor (profile : nat)
| OpNotify (profile : nat) (qt_notification : nat).

Definition run_op (qt_convert : Format -> QImageData -> QImageData)
    (daemon : nat -> MethodCall -> QDBusMessage) (o : Op) (w : World)
    : World :=
  match o with
  | OpPresent q => snd (_present qt_convert daemon q w)
  | OpSetAsPresenterFor p => snd (set_as_presenter_for p w)
  | OpNotify p q => snd (notify qt_convert daemon p q w)
  end.

Definition run_ops (qt_convert : Format -> QImageData -> QImageData)
    (daemon : nat -> MethodCall -> QDBusMessage) (ops : list Op) (w : World)
    : World :=
  fold_left (fun w o => run_op qt_convert daemon o w) ops w.

(** The slot holds the closure and the binding has a reference on it. *)
Definition installed (p : nat) (w : World) : Prop :=
  presenter (profiles w !!! p) = Some (present_and_reset p)
  /\ 1 <= presenter_refs (profiles w !!! p).

(** *** Concrete inputs *)

(** A conversion that re-tags the block and lays the rows out at four
    bytes per pixel. *)
Definition example_convert (f : Format) (d : QImageData) : QImageData :=
  {| d_format := f; d_width := d_width d; d_height := d_height d;
     d_bytes_per_line := 4 * d_width d;
     d_has_alpha_clut := d_has_alpha_clut d; d_data := d_data d |}.

Definition example_bus : QDBusConnection :=
  {| isConnected := true; service_reachable := true |}.

Definition example_manager : DBusNotificationManager :=
  {| active_notifications := ∅;
     interface := QDBusInterface_new "org.freedesktop.Notifications"
                                     "/org/freedesktop/Notifications"
                                     "org.freedesktop.Notifications"
                                     example_bus |}.

(** A 2x1 icon in 16-bit RGB. *)
Definition example_icon : QImageData :=
  {| d_format := Format_RGB16; d_width := 2; d_height := 1;
     d_bytes_per_line := 4; d_has_alpha_clut := false;
     d_data := fun _ => x00 |}.

(** Notification 0 is the build report without icon, notification 1
    carries an icon. *)
Definition example_world : World :=
  {| manager := example_manager;
     notifications :=
       {[ 0 := {| n_title := "Build failed"; n_message := "see log";
                  n_origin := "https://ci.example.com"; n_icon := None;
                  n_shown := false |};
          1 := {| n_title := "New mail"; n_message := "1 unread";
                  n_origin := "https://mail.example.com";
                  n_icon := Some example_icon; n_shown := false |} ]};
     images := [];
     profiles := ∅;
     trace := [] |}.

Definition reply_id (n : Z) : QDBusMessage :=
  {| msg_type := ReplyMessage; errorName := ""; errorMessage := "";
     arguments := [VInt n] |}.

(** The error the bus sends back when nobody owns the service name. *)
Definition service_unknown : QDBusMessage :=
  {| msg_type := ErrorMessage;
     errorName := "org.freedesktop.DBus.Error.ServiceUnknown";
     errorMessage := "The name org.freedesktop.Notifications was not provided by any .service files";
     arguments := [VStr "The name org.freedesktop.Notifications was not provided by any .service files"] |}.

(** An ordinary reply without any argument. *)
Definition empty_reply : QDBusMessage :=
  {| msg_type := ReplyMessage; errorName := ""; errorMessage := "";
     arguments := [] |}.

(** An error the bus layer makes up itself, as for a lost connection: it
    has no body.  ([interface.call] hands it on with one [None].) *)
Definition disconnected_error : QDBusMessage :=
  {| msg_type := ErrorMessage;
     errorName := "org.freedesktop.DBus.Error.Disconnected";
     errorMessage := "Not connected to D-Bus server";
     arguments := [] |}.


(** * Properties *)

(** ** One run of [_present] *)

Lemma calls_of_show t q : calls_of (t ++ [EvShow q]) = calls_of t.
Proof. unfold calls_of. rewrite omap_app. simpl. by rewrite app_nil_r. Qed.

Lemma at_least_one_argument_arguments (m : QDBusMessage) :
  arguments (at_least_one_argument m)
    = match arguments m with [] => [VNone] | _ :: _ => arguments m end.
Proof.
  unfold at_least_one_argument. by destruct (arguments m) eqn:Hargs.
Qed.

Ltac present_tail Hicon :=
  rewrite !calls_of_show;
  change (QVariant_convert QVariant_UInt (QVariant_of_int 0))
    with {| qv_type := QVariant_UInt; qv_value := 0 |};
  change (QDBusArgument_of_QStringList [])
    with {| qa_items := [DStringList []]; qa_open := [] |};
  unfold conclude, mark_shown, notify_call; rewrite Hicon;
  destruct (arguments _) as [|? [|? ?]]; cbn [length Nat.eqb negb fst snd];
  cbv beta; cbn [manager notifications images profiles trace interface];
  rewrite <- ?(assoc_L (++)); reflexivity.

Section Facts.
Variable qt_convert : Format -> QImageData -> QImageData.
Variable daemon : nat -> MethodCall -> QDBusMessage.

Lemma insert_snoc {A} (l : list A) (x y : A) :
  <[length l := y]> (l ++ [x]) = l ++ [y].
Proof. rewrite insert_app_r_alt by lia. by rewrite Nat.sub_diag. Qed.


Lemma convertTo_isNull f q : isNull (convertTo qt_convert f q) = isNull q.
Proof. destruct q as [d|]; simpl; [|done]. by case_bool_decide. Qed.

Lemma convert_image_run r w :
  _convert_image qt_convert r w =
    (match convertTo qt_convert Format_RGBA8888 (images w !!! r) with
     | Some d => Ok (image_struct d)
     | None =>
         Raise (AttributeError "'NoneType' object has no attribute 'asstring'")
     end,
     {| manager := manager w; notifications := notifications w;
        images := <[r := convertTo qt_convert Format_RGBA8888 (images w !!! r)]>
                    (images w);
        profiles := profiles w; trace := trace w |}).
Proof.
  unfold _convert_image, QImage_convertTo, read_image, modify, get.
  unfold mbind, M_bind, mret, M_ret; simpl.
  assert (Hq : <[r := convertTo qt_convert Format_RGBA8888 (images w !!! r)]>
                 (images w) !!! r
               = convertTo qt_convert Format_RGBA8888 (images w !!! r)).
  { destruct (decide (r < length (images w))) as [Hlt|Hge].
    - by apply list_lookup_total_insert_eq.
    - rewrite list_insert_ge by lia.
      rewrite (list_lookup_total_alt (images w) r).
      rewrite lookup_ge_None_2 by lia. done. }
  rewrite Hq.
  destruct (convertTo qt_convert Format_RGBA8888 (images w !!! r)) as [d|];
    reflexivity.
Qed.

Lemma present_run qt_notification w :
  let n := notifications w !!! qt_notification in
  let converted := convertTo qt_convert Format_RGBA8888 (n_icon n) in
  let c := notify_call (n_title n) (n_message n)
                       (hints_for converted (n_origin n)) in
  let reply := at_least_one_argument
                 (daemon (length (calls_of (trace w))) c) in
  _present qt_convert daemon qt_notification w =
    (fst (conclude reply),
     {| manager := manager w;
        notifications := <[qt_notification := mark_shown n]> (notifications w);
        images := images w ++ temporaries (n_icon n) converted;
        profiles := profiles w;
        trace := trace w
                   ++ [EvShow qt_notification; EvCall (interface (manager w)) c]
                   ++ snd (conclude reply) |}).
Proof.
  intros n converted c reply.
  unfold _present, show, read_notification, icon, read_image, interface_call,
    log_debug, emit, raise, modify, get.
  unfold mbind, M_bind, mret, M_ret.
  cbn [fst snd manager notifications images profiles trace].
  rewrite !lookup_total_insert_eq.
  rewrite lookup_total_app_r by lia. rewrite Nat.sub_diag.
  cbn [n_icon n_origin n_title n_message]. fold n.
  destruct (n_icon n) as [d|] eqn:Hicon;
    cbn [lookup_total list_lookup_total isNull negb]; cbv beta;
    cbn [fst snd manager notifications images profiles trace].
  - rewrite convert_image_run.
    cbn [fst snd manager notifications images profiles trace].
    rewrite !lookup_total_insert_eq. cbn [n_icon n_origin n_title n_message].
    rewrite (list_lookup_total_middle (images w ++ [Some d]) []
               (Some d : QImage)) by done.
    rewrite insert_snoc. fold converted.
    assert (Hc : exists d', converted = Some d').
    { subst converted. simpl. case_bool_decide; eauto. }
    destruct Hc as [d' Hc].
    subst c reply. rewrite Hc. cbn [hints_for temporaries trace notifications].
    rewrite lookup_total_insert_eq. cbn [n_title n_message].
    rewrite <- (assoc_L (++) (images w)). cbn [app].
    present_tail Hicon.
  - subst c reply converted.
    cbn [convertTo hints_for temporaries trace notifications].
    rewrite lookup_total_insert_eq. cbn [n_title n_message].
    present_tail Hicon.
Qed.



Lemma present_result q w :
  fst (_present qt_convert daemon q w) =
    fst (conclude
           (at_least_one_argument
              (daemon (length (calls_of (trace w)))
                 (notify_call (n_title (notifications w !!! q))
                    (n_message (notifications w !!! q))
                    (hints_for (convertTo qt_convert Format_RGBA8888
                                  (n_icon (notifications w !!! q)))
                               (n_origin (notifications w !!! q))))))).
Proof. by rewrite present_run. Qed.

Lemma present_manager q w :
  manager (snd (_present qt_convert daemon q w)) = manager w.
Proof. by rewrite present_run. Qed.

Lemma present_profiles q w :
  profiles (snd (_present qt_convert daemon q w)) = profiles w.
Proof. by rewrite present_run. Qed.

Lemma present_notifications q w :
  notifications (snd (_present qt_convert daemon q w)) =
    <[q := mark_shown (notifications w !!! q)]> (notifications w).
Proof. by rewrite present_run. Qed.

Lemma present_calls q w :
  calls_of (trace (snd (_present qt_convert daemon q w))) =
    calls_of (trace w) ++
      [notify_call (n_title (notifications w !!! q))
         (n_message (notifications w !!! q))
         (hints_for (convertTo qt_convert Format_RGBA8888
                       (n_icon (notifications w !!! q)))
                    (n_origin (notifications w !!! q)))].
Proof.
  rewrite present_run. cbn [snd trace]. unfold calls_of.
  rewrite !omap_app. cbn [omap list_omap].
  unfold conclude. destruct (arguments _) as [|? [|? ?]]; cbn; by rewrite ?app_nil_r.
Qed.

End Facts.

(** ** The call that is issued *)

(** C5: every [_present] issues the call [Notify] with, in order, the
    application name "qutebrowser", the id 0 as a QVariant of type UInt
    (on the wire a uint32, not the int32 a bare Python 0 would be), the
    icon name "qutebrowser", the title, the message, an empty list of
    strings, the hints, and the timeout -1 as an int32. *)
Theorem present_notify_arguments
    (qt_convert : Format -> QImageData -> QImageData)
    (daemon : nat -> MethodCall -> QDBusMessage) (q : nat) (w : World) :
  exists (c : MethodCall) (hints : gmap string PyArg),
    calls_of (trace (snd (_present qt_convert daemon q w)))
      = calls_of (trace w) ++ [c]
    /\ call_mode c = BlockWithGui
    /\ call_method c = "Notify"
    /\ call_args c =
         [ PyStr "qutebrowser";
           PyQVariant {| qv_type := QVariant_UInt; qv_value := 0 |};
           PyStr "qutebrowser";
           PyStr (n_title (notifications w !!! q));
           PyStr (n_message (notifications w !!! q));
           PyQDBusArgument {| qa_items := [DStringList []]; qa_open := [] |};
           PyDict hints;
           PyInt (-1) ]
    /\ call_signature (call_args c) = "susssasa{sv}i"
    /\ arg_signature (PyInt 0) = "i".
Proof.
  eexists _, _. split; [apply present_calls|].
  repeat split.
Qed.

(** C6: for a notification with a non-null icon, the value under
    [image-data] is one structure holding, in this order, width, height
    and bytes per line as int32, the alpha flag as a boolean, the int32
    constants 8 and 4, and a byte array whose length is bytes per line
    times height; the first four are read from the icon after its
    conversion to RGBA8888, whatever its format was. *)
Theorem present_image_data
    (qt_convert : Format -> QImageData -> QImageData)
    (daemon : nat -> MethodCall -> QDBusMessage) (q : nat) (w : World)
    (d : QImageData) :
  n_icon (notifications w !!! q) = Some d ->
  exists (c : MethodCall) (hints : gmap string PyArg)
         (wd ht stride : Z) (alpha : bool) (payload : list byte),
    calls_of (trace (snd (_present qt_convert daemon q w)))
      = calls_of (trace w) ++ [c]
    /\ call_args c !! 6%nat = Some (PyDict hints)
    /\ hints !! "image-data" =
         Some (PyQDBusArgument
                 {| qa_items :=
                      [DStruct [DInt32 wd; DInt32 ht; DInt32 stride;
                                DBool alpha; DInt32 8; DInt32 4;
                                DByteArray payload]];
                    qa_open := [] |})
    /\ Z.of_nat (length payload) = (stride * ht)%Z
    /\ signature (DStruct [DInt32 wd; DInt32 ht; DInt32 stride; DBool alpha;
                           DInt32 8; DInt32 4; DByteArray payload])
         = "(iiibiiay)"
    /\ (let converted := convertTo qt_convert Format_RGBA8888 (Some d) in
        wd = Z.of_nat (width converted)
        /\ ht = Z.of_nat (height converted)
        /\ stride = Z.of_nat (bytesPerLine converted)
        /\ alpha = hasAlphaChannel converted).
Proof.
  intros Hicon.
  pose proof (present_calls qt_convert daemon q w) as Hcalls.
  rewrite Hicon in Hcalls.
  assert (Hc : exists d', convertTo qt_convert Format_RGBA8888 (Some d) = Some d').
  { simpl. case_bool_decide; eauto. }
  destruct Hc as [d' Hc]. rewrite Hc in Hcalls. rewrite Hc.
  eexists _, _, _, _, _, _, _.
  split; [exact Hcalls|].
  split; [reflexivity|].
  split; [apply lookup_insert_eq|].
  split.
  { unfold asstring. rewrite length_fmap, length_seq. lia. }
  split; [reflexivity|].
  repeat split.
Qed.

(** C7: [_present] issues exactly one call.  Its hints always map
    [x-qutebrowser-origin] to the origin's display string.  With a null
    icon that is the whole map: it has no [image-data] key.  With a
    non-null icon, [image-data] maps to what [_convert_image] returns for
    an image object holding the icon. *)
Theorem present_hints
    (qt_convert : Format -> QImageData -> QImageData)
    (daemon : nat -> MethodCall -> QDBusMessage) (q : nat) (w : World) :
  exists (c : MethodCall) (hints : gmap string PyArg),
    calls_of (trace (snd (_present qt_convert daemon q w)))
      = calls_of (trace w) ++ [c]
    /\ call_args c !! 6%nat = Some (PyDict hints)
    /\ hints !! "x-qutebrowser-origin"
         = Some (PyStr (n_origin (notifications w !!! q)))
    /\ if isNull (n_icon (notifications w !!! q)) then
         hints = {[ "x-qutebrowser-origin"
                      := PyStr (n_origin (notifications w !!! q)) ]}
         /\ hints !! "image-data" = None
         /\ dom hints = {[ "x-qutebrowser-origin" ]}
       else
         exists image_data : QDBusArgument,
           hints !! "image-data" = Some (PyQDBusArgument image_data)
           /\ forall (r : nat) (wi : World),
                images wi !!! r = n_icon (notifications w !!! q) ->
                fst (_convert_image qt_convert r wi) = Ok image_data.
Proof.
  eexists _, _. split; [apply present_calls|].
  split; [reflexivity|].
  destruct (n_icon (notifications w !!! q)) as [d|] eqn:Hicon.
  - assert (Hc : exists d', convertTo qt_convert Format_RGBA8888 (Some d) = Some d').
    { simpl. case_bool_decide; eauto. }
    destruct Hc as [d' Hc]. rewrite Hc. cbn [hints_for isNull].
    split; [by rewrite lookup_insert_ne, lookup_singleton_eq|].
    eexists. split; [apply lookup_insert_eq|].
    intros r wi Hr. rewrite convert_image_run, Hr, Hc. reflexivity.
  - cbn [convertTo hints_for isNull].
    split; [apply lookup_singleton_eq|].
    split; [reflexivity|].
    split; [by apply lookup_singleton_ne|].
    apply dom_singleton_L.
Qed.

(** X12: when the message carries two or more arguments, [_present]
    raises [DBusException] with the number of arguments in its text; the
    manager's [active_notifications] is as before, nothing is logged,
    and the notification is marked as shown. *)
Theorem present_unexpected_reply
    (qt_convert : Format -> QImageData -> QImageData)
    (reply : QDBusMessage) (q : nat) (w : World) :
  2 <= length (arguments reply) ->
  fst (_present qt_convert (answering reply) q w)
    = Raise (DBusException
               ("Got an unexpected number of reply arguments "
                  +:+ pretty (length (arguments reply))))
  /\ active_notifications (manager (snd (_present qt_convert (answering reply) q w)))
       = active_notifications (manager w)
  /\ n_shown (notifications (snd (_present qt_convert (answering reply) q w)) !!! q)
       = true
  /\ logs_of (trace (snd (_present qt_convert (answering reply) q w)))
       = logs_of (trace w).
Proof.
  intros Harity. rewrite present_run. cbn [fst snd manager notifications trace].
  rewrite lookup_total_insert_eq.
  unfold answering, conclude, logs_of.
  rewrite at_least_one_argument_arguments, !omap_app.
  destruct (arguments reply) as [|v [|v' l]] eqn:Hargs;
    [cbn in Harity; lia | cbn in Harity; lia |].
  cbn [fst snd omap list_omap]. by rewrite !app_nil_r.
Qed.

(** ** Replies *)

(** Which daemon answers matters only through the one message it sends
    back for the call. *)
Lemma present_answering
    (qt_convert : Format -> QImageData -> QImageData)
    (daemon : nat -> MethodCall -> QDBusMessage) (q : nat) (w : World) :
  exists c : MethodCall,
    _present qt_convert daemon q w =
    _present qt_convert
      (answering (daemon (length (calls_of (trace w))) c)) q w.
Proof. eexists. rewrite !present_run. reflexivity. Qed.

(** C1: the build report of the specification, answered with id 7.
    [_present] returns and logs the id, and the registry has no entry
    for 7: it is still empty. *)
Theorem present_reply_7_not_registered :
  let r := _present example_convert (answering (reply_id 7)) 0 example_world in
  fst r = Ok ()
  /\ logs_of (trace (snd r)) = ["Sent out notification 7"]
  /\ active_notifications (manager (snd r)) !! 7%Z = None
  /\ active_notifications (manager (snd r)) = ∅.
Proof. rewrite present_run. repeat split. Qed.

(** X13: the kind of the reply plays no part: [_present] does with an
    error message, whatever its name and text, what it does with an
    ordinary reply of the same arguments (the same result, the same
    world). *)
Theorem present_ignores_reply_kind
    (qt_convert : Format -> QImageData -> QImageData)
    (reply : QDBusMessage) (q : nat) (w : World) :
  _present qt_convert (answering reply) q w
    = _present qt_convert
        (answering {| msg_type := ReplyMessage; errorName := "";
                      errorMessage := ""; arguments := arguments reply |})
        q w.
Proof.
  rewrite !present_run. unfold answering, conclude.
  rewrite !at_least_one_argument_arguments. reflexivity.
Qed.

(** C2: the call ends in a bus-level error and [_present] raises
    nothing.  For the error ServiceUnknown, whose body is the error
    text, it returns and logs the text as if it were the id.  For an
    error without body, as for a lost connection, it returns and logs
    [None] as the id. *)
Lemma present_error_reply_not_raised :
  let r := _present example_convert (answering service_unknown) 0
                    example_world in
  let r' := _present example_convert (answering disconnected_error) 0
                     example_world in
  msg_type service_unknown = ErrorMessage
  /\ fst r = Ok ()
  /\ ~ (exists e, fst r = Raise e)
  /\ logs_of (trace (snd r)) =
       ["Sent out notification The name org.freedesktop.Notifications was not provided by any .service files"]
  /\ msg_type disconnected_error = ErrorMessage
  /\ fst r' = Ok ()
  /\ logs_of (trace (snd r')) = ["Sent out notification None"].
Proof.
  rewrite !present_run. repeat split.
  intros [e He]. discriminate He.
Qed.

(** C4: the reply has no argument at all.  [interface.call] hands it on
    with one [None], the test of the length passes, and [_present]
    returns normally and logs [None] as the id: no exception names the
    count 0. *)
Theorem present_empty_reply_accepted :
  let r := _present example_convert (answering empty_reply) 0 example_world in
  length (arguments empty_reply) = 0
  /\ fst r = Ok ()
  /\ fst r <> Raise (DBusException
                       "Got an unexpected number of reply arguments 0")
  /\ logs_of (trace (snd r)) = ["Sent out notification None"]
  /\ n_shown (notifications (snd r) !!! 0) = true.
Proof. rewrite present_run. repeat split. discriminate. Qed.

Lemma present_unexpected_reply_witness :
  let reply := {| msg_type := ReplyMessage; errorName := "";
                  errorMessage := ""; arguments := [VInt 7; VInt 8] |} in
  fst (_present example_convert (answering reply) 1 example_world)
    = Raise (DBusException "Got an unexpected number of reply arguments 2")
  /\ active_notifications
       (manager (snd (_present example_convert (answering reply) 1 example_world)))
       = active_notifications (manager example_world)
  /\ n_shown (notifications
                (snd (_present example_convert (answering reply) 1 example_world))
              !!! 1) = true
  /\ logs_of (trace (snd (_present example_convert (answering reply) 1
                            example_world)))
       = logs_of (trace example_world).
Proof.
  intros reply.
  apply (present_unexpected_reply example_convert reply 1 example_world).
  simpl; lia.
Defined.

Lemma present_image_data_witness :
  exists (c : MethodCall) (hints : gmap string PyArg)
         (wd ht stride : Z) (alpha : bool) (payload : list byte),
    calls_of (trace (snd (_present example_convert (answering (reply_id 7)) 1
                            example_world)))
      = calls_of (trace example_world) ++ [c]
    /\ call_args c !! 6%nat = Some (PyDict hints)
    /\ hints !! "image-data" =
         Some (PyQDBusArgument
                 {| qa_items :=
                      [DStruct [DInt32 wd; DInt32 ht; DInt32 stride;
                                DBool alpha; DInt32 8; DInt32 4;
                                DByteArray payload]];
                    qa_open := [] |})
    /\ Z.of_nat (length payload) = (stride * ht)%Z
    /\ signature (DStruct [DInt32 wd; DInt32 ht; DInt32 stride; DBool alpha;
                           DInt32 8; DInt32 4; DByteArray payload])
         = "(iiibiiay)"
    /\ (let converted :=
          convertTo example_convert Format_RGBA8888 (Some example_icon) in
        wd = Z.of_nat (width converted)
        /\ ht = Z.of_nat (height converted)
        /\ stride = Z.of_nat (bytesPerLine converted)
        /\ alpha = hasAlphaChannel converted).
Proof.
  apply (present_image_data example_convert (answering (reply_id 7)) 1
           example_world example_icon).
  reflexivity.
Defined.

(** ** The presenter slot *)

Section Presenter.
Variable qt_convert : Format -> QImageData -> QImageData.
Variable daemon : nat -> MethodCall -> QDBusMessage.

Lemma present_and_reset_run p q w :
  _present_and_reset qt_convert daemon p q w =
    _present qt_convert daemon q
      (snd (setNotificationPresenter p (present_and_reset p) w)).
Proof. reflexivity. Qed.

Lemma set_as_presenter_for_installed p w :
  installed p (snd (set_as_presenter_for p w)).
Proof.
  unfold installed, set_as_presenter_for, setNotificationPresenter, modify.
  cbn [snd profiles]. rewrite lookup_total_insert_eq. cbn [install presenter presenter_refs].
  split; [done|]. case_bool_decide; lia.
Qed.

Lemma notify_installed p q w :
  installed p w ->
  exists r,
    fst (notify qt_convert daemon p q w) = Some r
    /\ installed p (snd (notify qt_convert daemon p q w))
    /\ length (calls_of (trace (snd (notify qt_convert daemon p q w))))
         = S (length (calls_of (trace w))).
Proof.
  intros [Hcb Hrefs]. unfold notify. rewrite Hcb.
  destruct (Nat.eqb_spec (presenter_refs (profiles w !!! p)) 0) as [H0|_];
    [lia|].
  cbn [call_presenter]. rewrite present_and_reset_run.
  destruct (_present _ _ _ _) as [r w'] eqn:Hrun.
  exists r. split; [done|]. cbn [snd].
  pose proof (present_profiles qt_convert daemon q
                (snd (setNotificationPresenter p (present_and_reset p) w)))
    as Hprof.
  pose proof (present_calls qt_convert daemon q
                (snd (setNotificationPresenter p (present_and_reset p) w)))
    as Hcalls.
  rewrite Hrun in Hprof, Hcalls. cbn [snd] in Hprof, Hcalls.
  split.
  - unfold installed. cbn [profiles]. rewrite lookup_total_insert_eq, Hprof.
    unfold setNotificationPresenter, modify. cbn [snd profiles].
    rewrite lookup_total_insert_eq. unfold install. rewrite Hcb.
    rewrite bool_decide_eq_true_2 by done.
    unfold unref. cbn [presenter_refs presenter Nat.pred].
    split; [done|lia].
  - cbn [trace]. rewrite Hcalls. rewrite length_app. cbn [length].
    unfold setNotificationPresenter, modify. cbn [snd trace].
    unfold calls_of. rewrite omap_app. cbn [omap list_omap].
    rewrite app_nil_r. lia.
Qed.

Lemma notify_all_installed p qs : forall w,
  installed p w ->
  Forall is_Some (fst (notify_all qt_convert daemon p qs w))
  /\ length (fst (notify_all qt_convert daemon p qs w)) = length qs
  /\ installed p (snd (notify_all qt_convert daemon p qs w))
  /\ length (calls_of (trace (snd (notify_all qt_convert daemon p qs w))))
       = length (calls_of (trace w)) + length qs.
Proof.
  induction qs as [|q qs IH]; intros w Hinst.
  - cbn. split; [constructor|]. split; [done|]. split; [done|lia].
  - cbn [notify_all].
    destruct (notify_installed p q w Hinst) as (r & Hr & Hinst' & Hcalls).
    destruct (notify qt_convert daemon p q w) as [r0 w'] eqn:Hn.
    cbn [fst snd] in Hr, Hinst', Hcalls. subst r0.
    destruct (IH w' Hinst') as (Hall & Hlen & Hinst'' & Hcalls'').
    destruct (notify_all qt_convert daemon p qs w') as [rs w''] eqn:Hrest.
    cbn [fst snd length] in *.
    split; [by constructor|]. split; [lia|]. split; [done|lia].
Qed.

End Presenter.

(** C3: the installed callback begins by putting itself back into the
    presenter slot of its profile, whatever [_present] does afterwards;
    when it is over, returned or raised, the slot holds it.  After
    [set_as_presenter_for], however many notifications the engine
    delivers and however the daemon answers, each one reaches the
    manager and issues its call, and the callback stays installed with a
    reference left on it. *)
Theorem presenter_stays_installed
    (qt_convert : Format -> QImageData -> QImageData)
    (daemon : nat -> MethodCall -> QDBusMessage)
    (p q : nat) (w : World) (qs : list nat) :
  (exists rest,
     trace (snd (_present_and_reset qt_convert daemon p q w))
       = trace w ++ EvSetPresenter p (present_and_reset p) :: rest)
  /\ presenter
       (profiles (snd (_present_and_reset qt_convert daemon p q w)) !!! p)
       = Some (present_and_reset p)
  /\ (let run := notify_all qt_convert daemon p qs
                   (snd (set_as_presenter_for p w)) in
      Forall is_Some (fst run)
      /\ length (fst run) = length qs
      /\ presenter (profiles (snd run) !!! p) = Some (present_and_reset p)
      /\ 1 <= presenter_refs (profiles (snd run) !!! p)
      /\ length (calls_of (trace (snd run)))
           = length (calls_of (trace w)) + length qs).
Proof.
  split; [|split].
  - rewrite present_and_reset_run, present_run.
    unfold setNotificationPresenter, modify. cbn [snd trace].
    rewrite <- (assoc_L (++)). eexists. reflexivity.
  - rewrite present_and_reset_run, present_profiles.
    unfold setNotificationPresenter, modify. cbn [snd profiles].
    by rewrite lookup_total_insert_eq.
  - intros run. subst run.
    destruct (notify_all_installed qt_convert daemon p qs
                (snd (set_as_presenter_for p w))
                (set_as_presenter_for_installed p w))
      as (Hall & Hlen & [Hcb Hrefs] & Hcalls).
    split; [done|]. split; [done|]. split; [done|]. split; [done|].
    rewrite Hcalls. unfold set_as_presenter_for, setNotificationPresenter, modify.
    cbn [snd trace]. unfold calls_of at 1. rewrite omap_app. cbn [omap list_omap].
    by rewrite app_nil_r.
Qed.

(** ** Construction *)

Lemma init_result (bus : QDBusConnection) :
  __init__ bus =
    if isConnected bus then
      Ok {| active_notifications := ∅;
            interface :=
              {| if_service := "org.freedesktop.Notifications";
                 if_path := "/org/freedesktop/Notifications";
                 if_interface := "org.freedesktop.Notifications";
                 if_connection := bus;
                 isValid := service_reachable bus |} |}
    else Raise (DBusException "Failed to connect to DBus session bus").
Proof.
  unfold __init__, QDBusInterface_new, QDBusInterface_bool.
  by destruct (isConnected bus).
Qed.

(** C8: on a connected session bus where the notification service
    cannot be bound, [__init__] raises nothing: it returns a manager
    whose interface is not valid.  The test [not self.interface] is
    false for every interface object. *)
Theorem init_accepts_invalid_interface :
  __init__ {| isConnected := true; service_reachable := false |}
    = Ok {| active_notifications := ∅;
            interface :=
              {| if_service := "org.freedesktop.Notifications";
                 if_path := "/org/freedesktop/Notifications";
                 if_interface := "org.freedesktop.Notifications";
                 if_connection :=
                   {| isConnected := true; service_reachable := false |};
                 isValid := false |} |}
  /\ forall bus : QDBusConnection,
       __init__ bus
         <> Raise (DBusException "Could not construct a DBus interface").
Proof.
  split; [reflexivity|].
  intros bus. rewrite init_result. by destruct (isConnected bus).
Qed.

(** ** The registry *)

Lemma run_op_manager qt_convert daemon o w :
  manager (run_op qt_convert daemon o w) = manager w.
Proof.
  destruct o as [q|p|p q]; cbn [run_op].
  - apply present_manager.
  - reflexivity.
  - unfold notify. destruct (presenter _) as [cb|]; [|done].
    destruct (Nat.eqb _ 0); [done|].
    destruct cb as [p'|]; cbn [call_presenter].
    + rewrite present_and_reset_run.
      destruct (_present _ _ _ _) as [r w'] eqn:Hrun. cbn [snd manager].
      change w' with (snd (r, w')). rewrite <- Hrun.
      by rewrite present_manager.
    + destruct (_present _ _ _ _) as [r w'] eqn:Hrun. cbn [snd manager].
      change w' with (snd (r, w')). rewrite <- Hrun.
      by rewrite present_manager.
Qed.

(** C9: every entry point leaves [active_notifications] as it found it,
    and in a world whose manager came out of [__init__] the registry is
    empty after any sequence of them. *)
Theorem registry_never_changes
    (qt_convert : Format -> QImageData -> QImageData)
    (daemon : nat -> MethodCall -> QDBusMessage)
    (bus : QDBusConnection) (m : DBusNotificationManager)
    (w : World) (ops : list Op) :
  __init__ bus = Ok m ->
  manager w = m ->
  active_notifications (manager (run_ops qt_convert daemon ops w)) = ∅
  /\ (forall (o : Op) (w' : World),
        active_notifications (manager (run_op qt_convert daemon o w'))
          = active_notifications (manager w')).
Proof.
  intros Hinit Hm. split.
  - assert (Hkeep : manager (run_ops qt_convert daemon ops w) = manager w).
    { unfold run_ops. revert w Hm.
      induction ops as [|o ops IH]; intros w Hm; [done|].
      cbn [fold_left]. rewrite IH; [apply run_op_manager|].
      by rewrite run_op_manager. }
    rewrite Hkeep, Hm. rewrite init_result in Hinit.
    destruct (isConnected bus); [|discriminate].
    by injection Hinit as <-.
  - intros o w'. by rewrite run_op_manager.
Qed.

Lemma registry_never_changes_witness :
  active_notifications
    (manager (run_ops example_convert (answering (reply_id 7))
                [OpSetAsPresenterFor 0; OpNotify 0 0; OpPresent 1;
                 OpNotify 0 1]
                example_world)) = ∅
  /\ (forall (o : Op) (w' : World),
        active_notifications
          (manager (run_op example_convert (answering (reply_id 7)) o w'))
          = active_notifications (manager w')).
Proof.
  apply (registry_never_changes example_convert (answering (reply_id 7))
           example_bus example_manager example_world); reflexivity.
Defined.

(** ** The icon *)

(** C10, refuted: notification 1 has a 16-bit RGB icon.  After
    [_present] the engine's icon is what it was, 16-bit RGB; the image
    that was converted is the second copy [icon()] handed out. *)
Lemma present_leaves_icon_format :
  let w' := snd (_present example_convert (answering (reply_id 7)) 1
                          example_world) in
  isNull (n_icon (notifications example_world !!! 1)) = false
  /\ QImage_format (n_icon (notifications w' !!! 1)) = Format_RGB16
  /\ QImage_format (n_icon (notifications w' !!! 1)) <> Format_RGBA8888
  /\ QImage_format <$> images w' = [Format_RGB16; Format_RGBA8888].
Proof. rewrite present_run. repeat split. discriminate. Qed.

(** C10, as the code has it: [_convert_image] converts the image object
    it is given where it lies, and reads the structure from the
    converted object; it touches no other image and no notification.
    In [_present] that object is a copy [icon()] has just made: the
    icons the engine keeps, and the image objects there were, are as
    before. *)
Theorem convert_image_in_place
    (qt_convert : Format -> QImageData -> QImageData)
    (daemon : nat -> MethodCall -> QDBusMessage)
    (r q : nat) (w : World) :
  (images (snd (_convert_image qt_convert r w))
     = <[r := convertTo qt_convert Format_RGBA8888 (images w !!! r)]> (images w)
   /\ notifications (snd (_convert_image qt_convert r w)) = notifications w
   /\ fst (_convert_image qt_convert r w)
        = match convertTo qt_convert Format_RGBA8888 (images w !!! r) with
          | Some d => Ok (image_struct d)
          | None =>
              Raise (AttributeError
                       "'NoneType' object has no attribute 'asstring'")
          end)
  /\ (forall q' : nat,
        n_icon (notifications (snd (_present qt_convert daemon q w)) !!! q')
          = n_icon (notifications w !!! q'))
  /\ images (snd (_present qt_convert daemon q w))
       = images w
           ++ temporaries (n_icon (notifications w !!! q))
                (convertTo qt_convert Format_RGBA8888
                   (n_icon (notifications w !!! q))).
Proof.
  split; [|split].
  - by rewrite convert_image_run.
  - intros q'. rewrite present_notifications.
    destruct (decide (q = q')) as [<-|Hne].
    + by rewrite lookup_total_insert_eq.
    + by rewrite lookup_total_insert_ne.
  - by rewrite present_run.
Qed.


(** * Further properties *)

(** ** Construction *)

(** X1: [__init__] raises exactly when the session bus is not connected,
    and then it is [DBusException] with the text "Failed to connect to
    DBus session bus".  Otherwise it returns a manager with an empty
    [active_notifications] whose interface is on that bus, at the
    service, path and interface of the desktop notification service. *)
Theorem init_outcome (bus : QDBusConnection) :
  match __init__ bus with
  | Raise e =>
      isConnected bus = false
      /\ e = DBusException "Failed to connect to DBus session bus"
  | Ok m =>
      isConnected bus = true
      /\ active_notifications m = ∅
      /\ if_connection (interface m) = bus
      /\ if_service (interface m) = "org.freedesktop.Notifications"
      /\ if_path (interface m) = "/org/freedesktop/Notifications"
      /\ if_interface (interface m) = "org.freedesktop.Notifications"
  end.
Proof.
  rewrite init_result. destruct (isConnected bus); repeat split.
Qed.

(** ** What [_present] does, in order *)

(** X2: [_present] adds to the trace, in this order: the [show()] of the
    notification, one call through the manager's interface, and at most
    one debug line, which is there exactly when [_present] returns
    normally. *)
Theorem present_effect_order
    (qt_convert : Format -> QImageData -> QImageData)
    (daemon : nat -> MethodCall -> QDBusMessage) (q : nat) (w : World) :
  exists (c : MethodCall) (lines : list string),
    trace (snd (_present qt_convert daemon q w))
      = trace w ++ [EvShow q; EvCall (interface (manager w)) c]
                ++ (EvLogDebug <$> lines)
    /\ length lines <= 1
    /\ (length lines = 1 <-> fst (_present qt_convert daemon q w) = Ok ()).
Proof.
  rewrite present_run. cbn [fst snd trace]. unfold conclude.
  destruct (arguments _) as [|v [|v' l]]; cbn [fst snd].
  - eexists _, []. split; [reflexivity|]. cbn. split; [lia|]. split; [lia|done].
  - eexists _, [_]. split; [reflexivity|]. cbn. split; [lia|]. split; done.
  - eexists _, []. split; [reflexivity|]. cbn. split; [lia|]. split; [lia|done].
Qed.

(** X3: the result of [_present] is decided by the number of arguments of
    the message alone: it returns normally when there is at most one (an
    empty message reaches the test with one [None]), and raises
    [DBusException] naming the number when there are two or more.  No
    other exception leaves it: the null-image and empty-list errors of
    the steps inside cannot occur. *)
Theorem present_result_by_arity
    (qt_convert : Format -> QImageData -> QImageData)
    (reply : QDBusMessage) (q : nat) (w : World) :
  fst (_present qt_convert (answering reply) q w)
    = if decide (length (arguments reply) <= 1) then Ok ()
      else Raise (DBusException
                    ("Got an unexpected number of reply arguments "
                       +:+ pretty (length (arguments reply)))).
Proof.
  rewrite present_run. unfold answering, conclude. cbn [fst].
  rewrite at_least_one_argument_arguments.
  destruct (arguments reply) as [|v [|v' l]]; reflexivity.
Qed.

(** X4: when the reply carries exactly one argument [v], [_present] logs
    one debug line, "Sent out notification " followed by [str(v)], and
    no other. *)
Theorem present_logs_reply_argument
    (qt_convert : Format -> QImageData -> QImageData)
    (reply : QDBusMessage) (v : PyValue) (q : nat) (w : World) :
  arguments reply = [v] ->
  logs_of (trace (snd (_present qt_convert (answering reply) q w)))
    = logs_of (trace w) ++ ["Sent out notification " +:+ py_str v].
Proof.
  intros Hv. rewrite present_run. cbn [snd trace].
  unfold answering, conclude.
  rewrite at_least_one_argument_arguments, Hv. cbn [snd].
  unfold logs_of. rewrite !omap_app. reflexivity.
Qed.

Lemma present_logs_reply_argument_witness :
  logs_of (trace (snd (_present example_convert (answering service_unknown) 1
                                example_world)))
    = logs_of (trace example_world)
        ++ ["Sent out notification " +:+
            py_str (VStr "The name org.freedesktop.Notifications was not provided by any .service files")].
Proof.
  apply (present_logs_reply_argument example_convert service_unknown
           (VStr "The name org.freedesktop.Notifications was not provided by any .service files")
           1 example_world).
  reflexivity.
Defined.

(** X5: presenting the same notification [k] times issues [k] calls, all
    the same: the call does not depend on the notification having been
    shown or presented before, and each one asks for a new id (id 0),
    none replaces an earlier one. *)
Theorem present_again_same_call
    (qt_convert : Format -> QImageData -> QImageData)
    (daemon : nat -> MethodCall -> QDBusMessage) (q k : nat) (w : World) :
  exists c : MethodCall,
    calls_of (trace (run_ops qt_convert daemon (replicate k (OpPresent q)) w))
      = calls_of (trace w) ++ replicate k c
    /\ call_args c !! 1%nat
         = Some (PyQVariant {| qv_type := QVariant_UInt; qv_value := 0 |}).
Proof.
  exists (notify_call (n_title (notifications w !!! q))
            (n_message (notifications w !!! q))
            (hints_for (convertTo qt_convert Format_RGBA8888
                          (n_icon (notifications w !!! q)))
                       (n_origin (notifications w !!! q)))).
  split; [|reflexivity].
  revert w. induction k as [|k IH]; intros w.
  - cbn. by rewrite app_nil_r.
  - cbn [replicate]. unfold run_ops in *. cbn [fold_left run_op].
    rewrite IH. rewrite present_calls, present_notifications.
    rewrite lookup_total_insert_eq. cbn [mark_shown n_title n_message n_origin n_icon].
    by rewrite <- (assoc_L (++)).
Qed.

(** X6: of the engine's notifications, [_present] changes one field of
    one object: the shown flag of the notification presented.  Titles,
    messages, origins and icons, and the flags of other notifications,
    are as before. *)
Theorem present_changes_shown_flag_only
    (qt_convert : Format -> QImageData -> QImageData)
    (daemon : nat -> MethodCall -> QDBusMessage) (q q' : nat) (w : World) :
  let before := notifications w !!! q' in
  let after := notifications (snd (_present qt_convert daemon q w)) !!! q' in
  n_title after = n_title before
  /\ n_message after = n_message before
  /\ n_origin after = n_origin before
  /\ n_icon after = n_icon before
  /\ n_shown after = if decide (q' = q) then true else n_shown before.
Proof.
  intros before after. subst before after. rewrite present_notifications.
  destruct (decide (q' = q)) as [->|Hne].
  - rewrite lookup_total_insert_eq. repeat split.
  - rewrite lookup_total_insert_ne by done. repeat split.
Qed.

(** ** The image and the hints *)

(** X7: the byte array sent for a non-null icon is the pixel memory of
    the converted image, byte for byte from its first byte, and ends
    after bytes per line times height bytes. *)
Theorem image_payload_bytes
    (qt_convert : Format -> QImageData -> QImageData)
    (daemon : nat -> MethodCall -> QDBusMessage) (q : nat) (w : World)
    (d : QImageData) :
  n_icon (notifications w !!! q) = Some d ->
  exists (c : MethodCall) (hints : gmap string PyArg) (d' : QImageData)
         (fields : list DBusValue) (payload : list byte),
    calls_of (trace (snd (_present qt_convert daemon q w)))
      = calls_of (trace w) ++ [c]
    /\ call_args c !! 6%nat = Some (PyDict hints)
    /\ hints !! "image-data" =
         Some (PyQDBusArgument
                 {| qa_items := [DStruct (fields ++ [DByteArray payload])];
                    qa_open := [] |})
    /\ length fields = 6
    /\ convertTo qt_convert Format_RGBA8888 (Some d) = Some d'
    /\ forall i : nat,
         payload !! i =
           if decide (i < d_bytes_per_line d' * d_height d')
           then Some (d_data d' i) else None.
Proof.
  intros Hicon.
  pose proof (present_calls qt_convert daemon q w) as Hcalls.
  rewrite Hicon in Hcalls.
  assert (Hc : exists d', convertTo qt_convert Format_RGBA8888 (Some d) = Some d').
  { simpl. case_bool_decide; eauto. }
  destruct Hc as [d' Hc]. rewrite Hc in Hcalls. rewrite Hc.
  eexists _, _, d',
    [DInt32 _; DInt32 _; DInt32 _; DBool _; DInt32 8; DInt32 4], _.
  split; [exact Hcalls|].
  split; [reflexivity|].
  split; [apply lookup_insert_eq|].
  split; [reflexivity|].
  split; [reflexivity|].
  intros i. unfold asstring. rewrite list_lookup_fmap.
  case_decide as Hi.
  - by rewrite lookup_seq_lt.
  - by rewrite lookup_seq_ge by lia.
Qed.

Lemma image_payload_bytes_witness :
  exists (c : MethodCall) (hints : gmap string PyArg) (d' : QImageData)
         (fields : list DBusValue) (payload : list byte),
    calls_of (trace (snd (_present example_convert (answering (reply_id 7)) 1
                            example_world)))
      = calls_of (trace example_world) ++ [c]
    /\ call_args c !! 6%nat = Some (PyDict hints)
    /\ hints !! "image-data" =
         Some (PyQDBusArgument
                 {| qa_items := [DStruct (fields ++ [DByteArray payload])];
                    qa_open := [] |})
    /\ length fields = 6
    /\ convertTo example_convert Format_RGBA8888 (Some example_icon) = Some d'
    /\ forall i : nat,
         payload !! i =
           if decide (i < d_bytes_per_line d' * d_height d')
           then Some (d_data d' i) else None.
Proof.
  apply (image_payload_bytes example_convert (answering (reply_id 7)) 1
           example_world example_icon).
  reflexivity.
Defined.

(** X8: the hints never carry a key other than [x-qutebrowser-origin]
    and [image-data]: the keys are the first alone for a null icon and
    both for a non-null one. *)
Theorem present_hint_keys
    (qt_convert : Format -> QImageData -> QImageData)
    (daemon : nat -> MethodCall -> QDBusMessage) (q : nat) (w : World) :
  exists (c : MethodCall) (hints : gmap string PyArg),
    calls_of (trace (snd (_present qt_convert daemon q w)))
      = calls_of (trace w) ++ [c]
    /\ call_args c !! 6%nat = Some (PyDict hints)
    /\ dom hints =
         if isNull (n_icon (notifications w !!! q))
         then {[ "x-qutebrowser-origin" ]}
         else {[ "image-data"; "x-qutebrowser-origin" ]}.
Proof.
  eexists _, _. split; [apply present_calls|].
  split; [reflexivity|].
  destruct (n_icon (notifications w !!! q)) as [d|] eqn:Hicon.
  - assert (Hc : exists d', convertTo qt_convert Format_RGBA8888 (Some d) = Some d').
    { simpl. case_bool_decide; eauto. }
    destruct Hc as [d' Hc]. rewrite Hc. cbn [hints_for isNull].
    by rewrite dom_insert_L, dom_singleton_L.
  - cbn [convertTo hints_for isNull]. apply dom_singleton_L.
Qed.

(** X9: given a null image, [_convert_image] raises [AttributeError]
    (there is no pixel pointer to read from) and returns no structure;
    the world is as it was. *)
Theorem convert_image_null
    (qt_convert : Format -> QImageData -> QImageData)
    (r : nat) (w : World) :
  isNull (images w !!! r) = true ->
  _convert_image qt_convert r w
    = (Raise (AttributeError "'NoneType' object has no attribute 'asstring'"),
       w).
Proof.
  intros Hnull. rewrite convert_image_run.
  destruct (images w !!! r) as [d|] eqn:Hr; [discriminate|].
  cbn [convertTo]. f_equal. destruct w as [m ns ims ps t].
  cbn [manager notifications images profiles trace] in *. f_equal.
  destruct (decide (r < length ims)) as [Hlt|Hge].
  - apply list_insert_id. rewrite list_lookup_lookup_total_lt by done.
    by rewrite Hr.
  - apply list_insert_ge. lia.
Qed.

Lemma convert_image_null_witness :
  _convert_image example_convert 0
    (snd (icon 0 example_world))
    = (Raise (AttributeError "'NoneType' object has no attribute 'asstring'"),
       snd (icon 0 example_world)).
Proof.
  apply (convert_image_null example_convert 0 (snd (icon 0 example_world))).
  reflexivity.
Defined.

(** ** Profiles *)

(** X10: the closure made for a profile puts itself back on that profile
    and no other: however many notifications of profile [p] are
    delivered, the presenter slot and reference count of every other
    profile are as before. *)
Theorem notify_leaves_other_profiles
    (qt_convert : Format -> QImageData -> QImageData)
    (daemon : nat -> MethodCall -> QDBusMessage)
    (p p' : nat) (qs : list nat) (w : World) :
  installed p w ->
  p' <> p ->
  profiles (snd (notify_all qt_convert daemon p qs w)) !!! p'
    = profiles w !!! p'.
Proof.
  intros Hinst Hne. revert w Hinst.
  induction qs as [|q qs IH]; intros w Hinst; [done|].
  cbn [notify_all].
  destruct (notify_installed qt_convert daemon p q w Hinst)
    as (r & _ & Hinst' & _).
  assert (Hstep : profiles (snd (notify qt_convert daemon p q w)) !!! p'
                  = profiles w !!! p').
  { destruct Hinst as [Hcb Hrefs]. unfold notify. rewrite Hcb.
    destruct (Nat.eqb_spec (presenter_refs (profiles w !!! p)) 0) as [H0|_];
      [lia|].
    cbn [call_presenter]. rewrite present_and_reset_run.
    destruct (_present _ _ _ _) as [r0 w0] eqn:Hrun. cbn [snd profiles].
    rewrite lookup_total_insert_ne by done.
    change w0 with (snd (r0, w0)). rewrite <- Hrun, present_profiles.
    unfold setNotificationPresenter, modify. cbn [snd profiles].
    by rewrite lookup_total_insert_ne. }
  destruct (notify qt_convert daemon p q w) as [r0 w'].
  cbn [snd] in Hinst', Hstep. specialize (IH w' Hinst').
  destruct (notify_all qt_convert daemon p qs w') as [rs w''].
  cbn [snd] in *. by rewrite IH.
Qed.

Lemma notify_leaves_other_profiles_witness :
  profiles (snd (notify_all example_convert (answering (reply_id 7)) 0 [0; 1]
                   (snd (set_as_presenter_for 0
                           (snd (set_as_presenter_for 5 example_world))))))
    !!! 5
  = profiles (snd (set_as_presenter_for 0
                     (snd (set_as_presenter_for 5 example_world)))) !!! 5.
Proof.
  apply (notify_leaves_other_profiles example_convert
           (answering (reply_id 7)) 0 5 [0; 1]
           (snd (set_as_presenter_for 0
                   (snd (set_as_presenter_for 5 example_world))))).
  - split; [reflexivity | vm_compute; lia].
  - lia.
Defined.
